(** * Clinical-trial report: a shallow embedding of [refactored_code.py]

    The program loads a CSV file into a pandas [DataFrame], selects the
    identifiers of the "responsive" patients with a boolean mask, averages
    [survival_months] per [treatment] group, prints three lines and returns
    the identifiers.

    The pandas operations the program calls are modelled below, one
    definition per operation, with the behaviour of pandas they stand for
    written next to them.  Numbers are exact rationals ([Q]): rounding of
    64-bit floats is not modelled. *)

From Stdlib Require Import QArith.
From stdpp Require Import gmap strings list fin_maps.

Local Open Scope string_scope.

(** ** Values held by a table *)

(** One cell of a column: a number, a string, or the missing value (pandas
    stores it as NaN, in numeric and in object columns alike). *)
Inductive cell :=
  | Num (q : Q)
  | Str (s : string)
  | Null.

(** A Python value that the program prints or stores in its result
    dictionary: an [int], a [float], or the float NaN. *)
Inductive pyval :=
  | PyInt (z : Z)
  | PyFloat (q : Q)
  | PyNaN.

(** A column ([pandas.Series]) is the list of its cells in row order; a
    table ([pandas.DataFrame]) maps column names to columns.  All columns of
    one table share the row index, so they have the same length. *)
Abbreviation Series := (list cell).
Abbreviation DataFrame := (gmap string (list cell)).

(** ** Exceptions *)

(** The exceptions the program can meet.  The specification calls
    [FileNotFoundError] a file access error, [ParserError] a parse error and
    the [KeyError] of a column lookup a missing column error. *)
Inductive exn :=
  | FileNotFoundError
  | ParserError
  | KeyError (key : string)
  | TypeError.

Inductive Result (A : Type) :=
  | Ok (a : A)
  | Raise (e : exn).
Arguments Ok {A} a.
Arguments Raise {A} e.

Definition bind {A B} (m : Result A) (k : A → Result B) : Result B :=
  match m with
  | Ok a => k a
  | Raise e => Raise e
  end.

Notation "x ←! m ; k" := (bind m (λ x, k))
  (at level 20, m at level 100, k at level 200, right associativity,
   format "x  ←!  m ;  '/' k").

(** Apply a fallible function to every element, left to right, stopping at
    the first exception. *)
Fixpoint traverse {A B} (f : A → Result B) (l : list A) : Result (list B) :=
  match l with
  | [] => Ok []
  | x :: l' => y ←! f x; ys ←! traverse f l'; Ok (y :: ys)
  end.

(** ** Constants of the module *)

Definition AGE_THRESHOLD : Q := 50.
Definition TARGET_CANCER_TYPE : string := "Lung".
Definition TREATMENT_GROUP : string := "Treatment_A".
Definition CONTROL_GROUP : string := "Control".

(** ** The pandas operations of the responder filter *)

(** [data[name]]: the column, or [KeyError] when the table has none of that
    name. *)
Definition getitem (data : DataFrame) (name : string) : Result Series :=
  match data !! name with
  | Some s => Ok s
  | None => Raise (KeyError name)
  end.

Definition Qltb (x y : Q) : bool :=
  match (x ?= y)%Q with
  | Lt => true
  | _ => false
  end.

(** [x >= threshold] for one cell and a number: a missing value compares
    false, a string against a number raises [TypeError]. *)
Definition ge_scalar (threshold : Q) (x : cell) : Result bool :=
  match x with
  | Num q => Ok (Qle_bool threshold q)
  | Null => Ok false
  | Str _ => Raise TypeError
  end.

(** [series >= threshold] *)
Definition series_ge (s : Series) (threshold : Q) : Result (list bool) :=
  traverse (ge_scalar threshold) s.

(** [x == target] for one cell and a string: never raises; numbers and
    missing values are different from every string. *)
Definition eq_scalar (target : string) (x : cell) : bool :=
  match x with
  | Str s => String.eqb s target
  | Num _ | Null => false
  end.

(** [series == target] *)
Definition series_eq (s : Series) (target : string) : list bool :=
  eq_scalar target <$> s.

(** [x < y] for two cells: false when either is missing; numbers compare as
    numbers, strings in code-point order; a number against a string raises
    [TypeError]. *)
Definition lt_cell (x y : cell) : Result bool :=
  match x, y with
  | Null, _ | _, Null => Ok false
  | Num p, Num q => Ok (Qltb p q)
  | Str s, Str t => Ok (String.ltb s t)
  | Num _, Str _ | Str _, Num _ => Raise TypeError
  end.

(** [left < right], row by row, for two columns of one table. *)
Definition series_lt (left right : Series) : Result (list bool) :=
  traverse (λ xy, lt_cell xy.1 xy.2) (zip left right).

(** [m1 & m2] on boolean columns. *)
Definition mask_and (m1 m2 : list bool) : list bool :=
  zip_with andb m1 m2.

(** The entries of [l] at the rows where [mask] is true, in row order. *)
Fixpoint select {A} (mask : list bool) (l : list A) : list A :=
  match mask, l with
  | b :: mask', x :: l' => if b then x :: select mask' l' else select mask' l'
  | _, _ => []
  end.

(** [data[mask]]: boolean indexing keeps, in every column, the rows where the
    mask is true. *)
Definition getitem_mask (data : DataFrame) (mask : list bool) : DataFrame :=
  select mask <$> data.

(** ** [get_responsive_patients] *)

(** Python evaluates [(a) & (b) & (c)] left to right: the age column is
    looked up and compared before [cancer_type] is looked up, and so on;
    [patient_id] is looked up last, in the filtered table.  [.tolist()]
    returns the cells of the column. *)
Definition get_responsive_patients (data : DataFrame) : Result (list cell) :=
  age_col ←! getitem data "age";
  m_age ←! series_ge age_col AGE_THRESHOLD;
  type_col ←! getitem data "cancer_type";
  let m_type := series_eq type_col TARGET_CANCER_TYPE in
  let m_age_type := mask_and m_age m_type in
  final_col ←! getitem data "final_tumor_size";
  baseline_col ←! getitem data "baseline_tumor_size";
  m_size ←! series_lt final_col baseline_col;
  let filtered := getitem_mask data (mask_and m_age_type m_size) in
  ids ←! getitem filtered "patient_id";
  Ok ids.

(** ** The pandas operations of the survival aggregator *)

(** Equality of two group keys.  A missing key equals nothing, itself
    included. *)
Definition cell_eqb (x y : cell) : bool :=
  match x, y with
  | Num p, Num q => Qeq_bool p q
  | Str s, Str t => String.eqb s t
  | _, _ => false
  end.

Definition is_null (x : cell) : bool :=
  match x with
  | Null => true
  | _ => false
  end.

(** The keys of [groupby]: the distinct values of the key column, each once.
    Rows whose key is missing are dropped ([dropna=True] is the default).
    pandas sorts the keys; the program reads the groups by key only, so the
    order is left as the order of first appearance. *)
Fixpoint group_keys (keys : Series) : list cell :=
  match keys with
  | [] => []
  | k :: keys' =>
      if is_null k then group_keys keys'
      else k :: List.filter (λ k', negb (cell_eqb k k')) (group_keys keys')
  end.

(** The values of the rows whose key is [k]. *)
Definition group_values (k : cell) (keys vals : Series) : Series :=
  select (cell_eqb k <$> keys) vals.

(** The numbers of a column, missing values skipped; a string makes the
    aggregation raise [TypeError]. *)
Fixpoint numeric_values (vals : Series) : Result (list Q) :=
  match vals with
  | [] => Ok []
  | Num q :: vals' => qs ←! numeric_values vals'; Ok (q :: qs)
  | Null :: vals' => numeric_values vals'
  | Str _ :: _ => Raise TypeError
  end.

Definition Qsum (qs : list Q) : Q := foldl Qplus 0%Q qs.

(** The arithmetic mean of a list of numbers, NaN for the empty list. *)
Definition mean_of (qs : list Q) : pyval :=
  match qs with
  | [] => PyNaN
  | _ :: _ => PyFloat (Qsum qs / inject_Z (Z.of_nat (length qs)))
  end.

(** [.mean()] of one group: missing values are skipped ([skipna]), and a
    group with no value left has mean NaN. *)
Definition series_mean (vals : Series) : Result pyval :=
  qs ←! numeric_values vals;
  Ok (mean_of qs).

(** [data.groupby(key)[val].mean()] on the two columns: a column indexed by
    group key, kept as an association list. *)
Definition groupby_mean (keys vals : Series) : Result (list (cell * pyval)) :=
  traverse
    (λ k, m ←! series_mean (group_values k keys vals); Ok (k, m))
    (group_keys keys).

(** [grouped.get(key, default)] *)
Definition series_get (grouped : list (cell * pyval)) (key : cell)
    (default : pyval) : pyval :=
  match List.find (λ kv, cell_eqb kv.1 key) grouped with
  | Some kv => kv.2
  | None => default
  end.

(** ** [compute_survival_statistics] *)

(** [groupby("treatment")] raises [KeyError] when the table has no such
    column, then [["survival_months"]] does.  The result is a Python dict
    with two keys. *)
Definition compute_survival_statistics (data : DataFrame)
    : Result (gmap string pyval) :=
  treatment_col ←! getitem data "treatment";
  survival_col ←! getitem data "survival_months";
  grouped ←! groupby_mean treatment_col survival_col;
  Ok (<["avg_survival_treatment_group" :=
          series_get grouped (Str TREATMENT_GROUP) (PyInt 0)]>
      (<["avg_survival_control" :=
          series_get grouped (Str CONTROL_GROUP) (PyInt 0)]> ∅)).

(** ** Standard output *)

(** One line written by [print(label, value)]. *)
Record OutLine := Line { line_label : string; line_value : pyval }.

(** A computation that may print and may raise: it takes the lines printed so
    far and returns the lines printed after it, with its result. *)
Definition IO (A : Type) : Type := list OutLine → list OutLine * Result A.

Definition io_ret {A} (a : A) : IO A := λ out, (out, Ok a).

Definition io_bind {A B} (m : IO A) (k : A → IO B) : IO B :=
  λ out,
    match m out with
    | (out', Ok a) => k a out'
    | (out', Raise e) => (out', Raise e)
    end.

(** A computation that does not print. *)
Definition lift {A} (r : Result A) : IO A := λ out, (out, r).

Definition print (label : string) (value : pyval) : IO unit :=
  λ out, ((out ++ [Line label value])%list, Ok tt).

Notation "x ⇐ m ; k" := (io_bind m (λ x, k))
  (at level 20, m at level 100, k at level 200, right associativity,
   format "x  ⇐  m ;  '/' k").
Notation "m ⨾ k" := (io_bind m (λ _, k))
  (at level 100, k at level 200, right associativity,
   format "m  ⨾  '/' k").

(** [d[key]] on a Python dict. *)
Definition dict_getitem (d : gmap string pyval) (key : string) : Result pyval :=
  match d !! key with
  | Some v => Ok v
  | None => Raise (KeyError key)
  end.

(** ** The loader and the entry point *)

Section Environment.

(** The files that exist when the program runs, by path, with their
    content. *)
Variable fs : gmap string string.

(** The CSV parser of pandas: the table a file content holds, or [None]
    when the content is not valid delimited data. *)
Variable parse_csv : string → option DataFrame.

(** [pd.read_csv(path)] *)
Definition read_csv (path : string) : Result DataFrame :=
  match fs !! path with
  | None => Raise FileNotFoundError
  | Some content =>
      match parse_csv content with
      | None => Raise ParserError
      | Some data => Ok data
      end
  end.

Definition load_clinical_data (file_path : string) : Result DataFrame :=
  read_csv file_path.

(** The arguments of each [print] are evaluated just before it prints. *)
Definition analyze_clinical_trial (file_path : string) : IO (list cell) :=
  data ⇐ lift (load_clinical_data file_path);
  responsive_patients ⇐ lift (get_responsive_patients data);
  survival_stats ⇐ lift (compute_survival_statistics data);
  avg_t ⇐ lift (dict_getitem survival_stats "avg_survival_treatment_group");
  print "Avg survival (Treatment A):" avg_t ⨾
  avg_c ⇐ lift (dict_getitem survival_stats "avg_survival_control");
  print "Avg survival (Control):" avg_c ⨾
  print "Responsive patients:"
    (PyInt (Z.of_nat (length responsive_patients))) ⨾
  io_ret responsive_patients.

End Environment.

(** ** The data model of the specification *)

(** One row with the seven named fields.  A numeric or categorical field
    may be missing ([None]); the identifier is any cell. *)
Record ClinicalRecord := {
  patient_id : cell;
  age : option Q;
  cancer_type : option string;
  baseline_tumor_size : option Q;
  final_tumor_size : option Q;
  treatment : option string;
  survival_months : option Q
}.

Definition num_cell (x : option Q) : cell :=
  match x with
  | Some q => Num q
  | None => Null
  end.

Definition str_cell (x : option string) : cell :=
  match x with
  | Some s => Str s
  | None => Null
  end.

(** The table [data] holds the rows [rows], in order, in its seven named
    columns; it may have any other columns as well. *)
Definition holds_records (data : DataFrame) (rows : list ClinicalRecord) : Prop :=
  data !! "patient_id" = Some (patient_id <$> rows) ∧
  data !! "age" = Some ((λ r, num_cell (age r)) <$> rows) ∧
  data !! "cancer_type" = Some ((λ r, str_cell (cancer_type r)) <$> rows) ∧
  data !! "baseline_tumor_size" =
    Some ((λ r, num_cell (baseline_tumor_size r)) <$> rows) ∧
  data !! "final_tumor_size" =
    Some ((λ r, num_cell (final_tumor_size r)) <$> rows) ∧
  data !! "treatment" = Some ((λ r, str_cell (treatment r)) <$> rows) ∧
  data !! "survival_months" =
    Some ((λ r, num_cell (survival_months r)) <$> rows).

(** The table with exactly the seven named columns of [rows]. *)
Definition frame_of_records (rows : list ClinicalRecord) : DataFrame :=
  <["patient_id" := patient_id <$> rows]>
  (<["age" := (λ r, num_cell (age r)) <$> rows]>
  (<["cancer_type" := (λ r, str_cell (cancer_type r)) <$> rows]>
  (<["baseline_tumor_size" := (λ r, num_cell (baseline_tumor_size r)) <$> rows]>
  (<["final_tumor_size" := (λ r, num_cell (final_tumor_size r)) <$> rows]>
  (<["treatment" := (λ r, str_cell (treatment r)) <$> rows]>
  (<["survival_months" := (λ r, num_cell (survival_months r)) <$> rows]> ∅)))))).

(** The three predicates of the responder filter, as the specification
    words them: a missing field fails its comparison. *)
Definition is_responsive (r : ClinicalRecord) : Prop :=
  (∃ a, age r = Some a ∧ (50 <= a)%Q) ∧
  cancer_type r = Some "Lung" ∧
  (∃ f b, final_tumor_size r = Some f ∧ baseline_tumor_size r = Some b ∧
          (f < b)%Q).

(** The same three predicates as a test. *)
Definition responsiveb (r : ClinicalRecord) : bool :=
  match age r with Some a => Qle_bool 50 a | None => false end &&
  match cancer_type r with Some c => String.eqb c "Lung" | None => false end &&
  match final_tumor_size r, baseline_tumor_size r with
  | Some f, Some b => Qltb f b
  | _, _ => false
  end.

Lemma Qltb_lt (x y : Q) : Qltb x y = true ↔ (x < y)%Q.
Proof.
  unfold Qltb. rewrite Qlt_alt. destruct (x ?= y)%Q; split; congruence.
Qed.

Lemma responsiveb_spec (r : ClinicalRecord) :
  responsiveb r = true ↔ is_responsive r.
Proof.
  unfold responsiveb, is_responsive.
  rewrite !andb_true_iff. split.
  - intros [[Ha Hc] Hs]. repeat split.
    + destruct (age r) as [a|]; [|done].
      exists a. split; [done|]. by apply Qle_bool_iff.
    + destruct (cancer_type r) as [c|]; [|done].
      by apply String.eqb_eq in Hc as ->.
    + destruct (final_tumor_size r) as [f|]; [|done].
      destruct (baseline_tumor_size r) as [b|]; [|done].
      exists f, b. repeat split. by apply Qltb_lt.
  - intros [(a & -> & Ha) [-> (f & b & -> & -> & Hs)]].
    split; [split|].
    + by apply Qle_bool_iff.
    + by apply String.eqb_eq.
    + by apply Qltb_lt.
Qed.

#[global] Instance is_responsive_dec (r : ClinicalRecord) :
  Decision (is_responsive r).
Proof.
  refine (cast_if (decide (responsiveb r = true)));
    by rewrite <- responsiveb_spec.
Defined.

(** The rows of a treatment group, and the mean the specification gives the
    group: the default 0 when the group has no row, else the mean of the
    survival values present. *)
Definition in_group (g : string) (r : ClinicalRecord) : Prop :=
  treatment r = Some g.

#[global] Instance in_group_dec (g : string) (r : ClinicalRecord) :
  Decision (in_group g r).
Proof. unfold in_group. apply _. Defined.

Definition group_mean (g : string) (rows : list ClinicalRecord) : pyval :=
  match filter (in_group g) rows with
  | [] => PyInt 0
  | grp => mean_of (omap survival_months grp)
  end.

(** The seven columns the specification names. *)
Definition named_columns : list string :=
  ["patient_id"; "age"; "cancer_type"; "baseline_tumor_size";
   "final_tumor_size"; "treatment"; "survival_months"].

(** The five columns the responder filter reads. *)
Definition filter_columns : list string :=
  ["age"; "cancer_type"; "final_tumor_size"; "baseline_tumor_size";
   "patient_id"].



(** ** Sample data *)

(** The three rows of the end-to-end scenario of the specification. *)
Definition scenario_rows : list ClinicalRecord :=
  [ {| patient_id := Str "P1"; age := Some 60%Q; cancer_type := Some "Lung";
       baseline_tumor_size := Some 10%Q; final_tumor_size := Some 5%Q;
       treatment := Some "Treatment_A"; survival_months := Some 20%Q |};
    {| patient_id := Str "P2"; age := Some 40%Q; cancer_type := Some "Lung";
       baseline_tumor_size := Some 10%Q; final_tumor_size := Some 5%Q;
       treatment := Some "Control"; survival_months := Some 10%Q |};
    {| patient_id := Str "P3"; age := Some 70%Q; cancer_type := Some "Lung";
       baseline_tumor_size := Some 8%Q; final_tumor_size := Some 9%Q;
       treatment := Some "Treatment_A"; survival_months := Some 30%Q |} ].

Definition scenario_data : DataFrame := frame_of_records scenario_rows.

(** A row that would be responsive but for its missing age, and whose
    treatment is missing too. *)
Definition incomplete_row : ClinicalRecord :=
  {| patient_id := Str "P4"; age := None; cancer_type := Some "Lung";
     baseline_tumor_size := Some 12%Q; final_tumor_size := Some 3%Q;
     treatment := None; survival_months := Some 50%Q |}.

(** The scenario with the incomplete row in second place. *)
Definition incomplete_rows : list ClinicalRecord :=
  match scenario_rows with
  | r :: rows => r :: incomplete_row :: rows
  | [] => [incomplete_row]
  end.

(** The scenario table with one more column. *)
Definition annotated_data : DataFrame :=
  <["site" := [Str "Kyiv"; Null; Num 7]]> scenario_data.

(** A table without the [treatment] column, and the files of a run that
    loads it. *)
Definition untreated_data : DataFrame := delete "treatment" scenario_data.

(** A table without the [age] column. *)
Definition ageless_data : DataFrame := delete "age" scenario_data.

Definition sample_fs : gmap string string :=
  {[ "clinical_trial_patients.csv" := "patient_id,age,cancer_type,..." ]}.

Definition sample_parse (data : DataFrame) : string → option DataFrame :=
  λ _, Some data.

(** Rows at the edges of the three predicates: one aged exactly 50 in a third
    arm of the trial, and one whose tumor did not change and whose survival
    was not measured. *)
Definition threshold_row : ClinicalRecord :=
  {| patient_id := Str "P5"; age := Some 50%Q; cancer_type := Some "Lung";
     baseline_tumor_size := Some 7%Q; final_tumor_size := Some 6%Q;
     treatment := Some "Treatment_B"; survival_months := Some 12%Q |}.

Definition tie_row : ClinicalRecord :=
  {| patient_id := Str "P6"; age := Some 65%Q; cancer_type := Some "Lung";
     baseline_tumor_size := Some 9%Q; final_tumor_size := Some 9%Q;
     treatment := Some "Treatment_A"; survival_months := None |}.

Definition edge_rows : list ClinicalRecord := [threshold_row; tie_row].

(** The scenario table with a word in the age column. *)
Definition text_age_data : DataFrame :=
  <["age" := [Num 60; Str "unknown"; Num 70]]> scenario_data.

(** The two labels the aggregator reads, each with the key of the result
    that holds its mean. *)
Definition group_fields : list (string * string) :=
  [(TREATMENT_GROUP, "avg_survival_treatment_group");
   (CONTROL_GROUP, "avg_survival_control")].

(** The two columns the aggregator reads. *)
Definition aggregator_columns : list string :=
  ["treatment"; "survival_months"].

(** ** Lists, masks and the error monad *)

Section list_facts.
Context {A B C : Type}.


Lemma traverse_ext (f g : A → Result B) (l : list A) :
  (∀ x, f x = g x) → traverse f l = traverse g l.
Proof.
  intros Hfg. induction l as [|x l IH]; [done|].
  cbn. by rewrite Hfg, IH.
Qed.



Lemma select_fmap (mask : list bool) (g : A → B) (l : list A) :
  select mask (g <$> l) = g <$> select mask l.
Proof.
  revert l. induction mask as [|b mask IH]; intros [|x l]; try done.
  cbn. destruct b; cbn; by rewrite IH.
Qed.

Lemma select_filter (b : A → bool) (P : A → Prop) `{!∀ x, Decision (P x)}
    (l : list A) :
  (∀ x, b x = true ↔ P x) →
  select (b <$> l) l = filter P l.
Proof.
  intros Hb. induction l as [|x l IH]; [done|].
  change (select (b <$> x :: l) (x :: l))
    with (if b x then x :: select (b <$> l) l else select (b <$> l) l).
  destruct (b x) eqn:Hx.
  - rewrite filter_cons_True by by apply Hb. by rewrite IH.
  - rewrite filter_cons_False; [done|].
    intros HP. apply Hb in HP. congruence.
Qed.

Lemma select_delete (mask : list bool) (l : list A) (i : nat) :
  mask !! i = Some false →
  select (delete i mask) (delete i l) = select mask l.
Proof.
  revert l i. induction mask as [|b mask IH]; intros l i Hi; [done|].
  destruct i as [|i]; cbn in *.
  - injection Hi as ->. destruct l; [by destruct mask|done].
  - destruct l as [|x l]; [done|]. cbn.
    destruct b; by rewrite IH.
Qed.

Lemma filter_delete_False (P : A → Prop) `{!∀ x, Decision (P x)}
    (l : list A) (i : nat) (x : A) :
  l !! i = Some x → ¬ P x → filter P (delete i l) = filter P l.
Proof.
  revert i. induction l as [|y l IH]; intros i Hi Hx; [done|].
  destruct i as [|i]; simpl in Hi.
  - injection Hi as ->. by rewrite filter_cons_False.
  - change (delete (S i) (y :: l)) with (y :: delete i l).
    rewrite !filter_cons. by rewrite (IH i).
Qed.

End list_facts.

(** ** The responder filter on a table of records *)






Lemma holds_frame_of_records (rows : list ClinicalRecord) :
  holds_records (frame_of_records rows) rows.
Proof. unfold holds_records, frame_of_records. repeat split. Qed.


(** ** The survival aggregator: groups read by key *)

Lemma traverse_ok {A B} (f : A → Result B) (h : A → B) (l : list A) :
  (∀ x, f x = Ok (h x)) → traverse f l = Ok (h <$> l).
Proof.
  intros Hf. induction l as [|x l IH]; [done|].
  cbn. by rewrite Hf, IH.
Qed.

Lemma cell_eqb_Str (k : cell) (g : string) :
  cell_eqb k (Str g) = true ↔ k = Str g.
Proof.
  destruct k as [q|s|]; cbn; try (split; congruence).
  rewrite String.eqb_eq. split; congruence.
Qed.

Lemma cell_eqb_Null_r (k : cell) : cell_eqb k Null = false.
Proof. by destruct k. Qed.

Lemma find_filter_keep {A} (p q : A → bool) (l : list A) :
  (∀ x, p x = true → q x = true) →
  List.find p (List.filter q l) = List.find p l.
Proof.
  intros Hpq. induction l as [|x l IH]; [done|].
  cbn. destruct (q x) eqn:Hq; cbn.
  - by rewrite IH.
  - destruct (p x) eqn:Hp; [|done].
    apply Hpq in Hp. congruence.
Qed.

(** The group whose key is the string [g] exists exactly when some row has
    that key. *)
Lemma find_group_keys (g : string) (keys : Series) :
  List.find (λ k, cell_eqb k (Str g)) (group_keys keys) =
  if existsb (λ k, cell_eqb k (Str g)) keys then Some (Str g) else None.
Proof.
  induction keys as [|k keys IH]; [done|].
  cbn. destruct (is_null k) eqn:Hnull.
  - by destruct k.
  - cbn. destruct (cell_eqb k (Str g)) eqn:Hk; cbn.
    + by apply cell_eqb_Str in Hk as ->.
    + rewrite find_filter_keep; [done|].
      intros x Hx. apply cell_eqb_Str in Hx as ->. by rewrite Hk.
Qed.

Lemma find_fmap_key (F : cell → pyval) (key : cell) (l : list cell) :
  List.find (λ kv, cell_eqb kv.1 key) ((λ k, (k, F k)) <$> l) =
  (λ k, (k, F k)) <$> List.find (λ k, cell_eqb k key) l.
Proof.
  induction l as [|k l IH]; [done|].
  cbn. by destruct (cell_eqb k key).
Qed.

(** No group has the missing value as its key. *)
Lemma group_keys_not_null (keys : Series) : Null ∉ group_keys keys.
Proof.
  induction keys as [|k keys IH]; cbn.
  - apply not_elem_of_nil.
  - destruct k as [q|s|]; cbn; [| |done].
    + intros [?|Hin%list_elem_of_In%filter_In%proj1%list_elem_of_In]%elem_of_cons;
        [done|by apply IH].
    + intros [?|Hin%list_elem_of_In%filter_In%proj1%list_elem_of_In]%elem_of_cons;
        [done|by apply IH].
Qed.

Lemma traverse_keys {A B} (f : A → Result (A * B)) (l : list A)
    (res : list (A * B)) :
  (∀ x y, f x = Ok y → y.1 = x) →
  traverse f l = Ok res → res.*1 = l.
Proof.
  intros Hf. revert res. induction l as [|x l IH]; intros res; cbn.
  - by intros [= <-].
  - destruct (f x) as [y|] eqn:Hy; cbn; [|done].
    destruct (traverse f l) as [ys|]; cbn; [|done].
    intros [= <-]. cbn. by rewrite (Hf _ _ Hy), (IH ys).
Qed.

Lemma groupby_mean_keys (keys vals : Series) (grouped : list (cell * pyval)) :
  groupby_mean keys vals = Ok grouped → grouped.*1 = group_keys keys.
Proof.
  apply traverse_keys. intros k y.
  destruct (series_mean _); cbn; [|done]. by intros [= <-].
Qed.

(** Removing a row whose key is missing changes no group. *)
Lemma group_keys_delete_null (keys : Series) (i : nat) :
  keys !! i = Some Null → group_keys (delete i keys) = group_keys keys.
Proof.
  revert i. induction keys as [|k keys IH]; intros i Hi; [done|].
  destruct i as [|i]; cbn in Hi.
  - by injection Hi as ->.
  - change (delete (S i) (k :: keys)) with (k :: delete i keys).
    cbn [group_keys]. by rewrite (IH i).
Qed.

Lemma group_values_delete_null (k : cell) (keys vals : Series) (i : nat) :
  keys !! i = Some Null →
  group_values k (delete i keys) (delete i vals) = group_values k keys vals.
Proof.
  intros Hi. unfold group_values.
  rewrite list_fmap_delete. apply select_delete.
  by rewrite list_lookup_fmap, Hi, <- (cell_eqb_Null_r k).
Qed.

Lemma groupby_mean_delete_null (keys vals : Series) (i : nat) :
  keys !! i = Some Null →
  groupby_mean (delete i keys) (delete i vals) = groupby_mean keys vals.
Proof.
  intros Hi. unfold groupby_mean.
  rewrite group_keys_delete_null by done.
  apply traverse_ext. intros k.
  by rewrite group_values_delete_null.
Qed.

(** ** The survival aggregator on a table of records *)

Lemma numeric_values_num_cell {A} (f : A → option Q) (l : list A) :
  numeric_values ((λ x, num_cell (f x)) <$> l) = Ok (omap f l).
Proof.
  induction l as [|x l IH]; [done|].
  cbn. destruct (f x) as [q|]; cbn; by rewrite IH.
Qed.

Lemma existsb_in_group (g : string) (rows : list ClinicalRecord) :
  existsb (λ k, cell_eqb k (Str g)) ((λ r, str_cell (treatment r)) <$> rows) =
  match filter (in_group g) rows with [] => false | _ :: _ => true end.
Proof.
  induction rows as [|r rows IH]; [done|].
  rewrite fmap_cons. cbn [existsb]. rewrite filter_cons.
  destruct (decide (in_group g r)) as [Hg|Hg].
  - unfold in_group in Hg. rewrite Hg. cbn. by rewrite String.eqb_refl.
  - rewrite IH. unfold in_group in Hg.
    destruct (treatment r) as [t|]; cbn; [|done].
    destruct (String.eqb_spec t g) as [->|]; [done|done].
Qed.

Lemma group_values_records (g : string) (rows : list ClinicalRecord) :
  group_values (Str g) ((λ r, str_cell (treatment r)) <$> rows)
    ((λ r, num_cell (survival_months r)) <$> rows) =
  (λ r, num_cell (survival_months r)) <$> filter (in_group g) rows.
Proof.
  unfold group_values. rewrite select_fmap, <- list_fmap_compose.
  f_equal. apply (select_filter (λ r, cell_eqb (Str g) (str_cell (treatment r)))).
  intros r. unfold in_group.
  destruct (treatment r) as [t|]; cbn; [|done].
  rewrite String.eqb_eq. split; congruence.
Qed.

Lemma groupby_mean_records (rows : list ClinicalRecord) :
  let keys := (λ r, str_cell (treatment r)) <$> rows in
  let vals := (λ r, num_cell (survival_months r)) <$> rows in
  groupby_mean keys vals =
  Ok ((λ k, (k, mean_of (omap survival_months
                           (select (cell_eqb k <$> keys) rows))))
        <$> group_keys keys).
Proof.
  intros keys vals. unfold groupby_mean.
  apply traverse_ok. intros k.
  unfold group_values, series_mean, vals.
  by rewrite select_fmap, numeric_values_num_cell.
Qed.

Lemma series_get_records (g : string) (rows : list ClinicalRecord)
    (grouped : list (cell * pyval)) :
  groupby_mean ((λ r, str_cell (treatment r)) <$> rows)
    ((λ r, num_cell (survival_months r)) <$> rows) = Ok grouped →
  series_get grouped (Str g) (PyInt 0) = group_mean g rows.
Proof.
  rewrite groupby_mean_records. intros [= <-].
  unfold series_get, group_mean.
  rewrite find_fmap_key, find_group_keys, existsb_in_group.
  pose proof (group_values_records g rows) as Hv.
  unfold group_values in Hv. rewrite select_fmap in Hv.
  destruct (filter (in_group g) rows) as [|r grp] eqn:Hgrp; [done|].
  cbn [fmap option_fmap option_map snd].
  f_equal. rewrite <- Hgrp.
  f_equal. rewrite <- list_fmap_compose.
  apply (select_filter (λ r, cell_eqb (Str g) (str_cell (treatment r)))).
  intros r'. unfold in_group.
  destruct (treatment r') as [t|]; cbn; [|done].
  rewrite String.eqb_eq. split; congruence.
Qed.

Lemma survival_statistics_of_records (data : DataFrame)
    (rows : list ClinicalRecord) :
  holds_records data rows →
  compute_survival_statistics data =
  Ok (<["avg_survival_treatment_group" := group_mean TREATMENT_GROUP rows]>
      (<["avg_survival_control" := group_mean CONTROL_GROUP rows]> ∅)).
Proof.
  intros (_ & _ & _ & _ & _ & Htreat & Hsurv).
  unfold compute_survival_statistics, getitem.
  rewrite Htreat, Hsurv. cbn [bind].
  pose proof (groupby_mean_records rows) as Hg. cbn zeta in Hg.
  destruct (groupby_mean _ _) as [grouped|e] eqn:Hgm; [|done].
  cbn [bind]. by rewrite !(series_get_records _ rows grouped Hgm).
Qed.

(** Whatever the table, a result of the aggregator has the two keys. *)
Lemma survival_statistics_fields (data : DataFrame) (stats : gmap string pyval) :
  compute_survival_statistics data = Ok stats →
  ∃ a b,
    stats = <["avg_survival_treatment_group" := a]>
              (<["avg_survival_control" := b]> ∅).
Proof.
  unfold compute_survival_statistics.
  destruct (getitem data "treatment"); cbn; [|done].
  destruct (getitem data "survival_months"); cbn; [|done].
  destruct (groupby_mean _ _); cbn; [|done].
  intros [= <-]. by eexists _, _.
Qed.

(** ** The responder filter *)







(** C8, for both components.  Two tables that agree on the seven named
    columns give the same result, exception included, whatever their other
    columns hold. *)
Theorem extra_columns_ignored (data1 data2 : DataFrame) :
  Forall (λ c, data1 !! c = data2 !! c) named_columns →
  get_responsive_patients data1 = get_responsive_patients data2 ∧
  compute_survival_statistics data1 = compute_survival_statistics data2.
Proof.
  intros Hagree.
  assert (∀ c, c ∈ named_columns → data1 !! c = data2 !! c) as Hc
    by by apply Forall_forall.
  assert (∀ c, c ∈ named_columns → getitem data1 c = getitem data2 c) as Hg
    by (intros c Hin; unfold getitem; by rewrite (Hc c Hin)).
  split.
  - unfold get_responsive_patients.
    rewrite !(Hg "age"), !(Hg "cancer_type"), !(Hg "final_tumor_size"),
      !(Hg "baseline_tumor_size") by (unfold named_columns; set_solver).
    destruct (getitem data2 "age"); cbn; [|done].
    destruct (series_ge _ _); cbn; [|done].
    destruct (getitem data2 "cancer_type"); cbn; [|done].
    destruct (getitem data2 "final_tumor_size"); cbn; [|done].
    destruct (getitem data2 "baseline_tumor_size"); cbn; [|done].
    destruct (series_lt _ _); cbn; [|done].
    unfold getitem, getitem_mask. rewrite !lookup_fmap.
    by rewrite (Hc "patient_id") by (unfold named_columns; set_solver).
  - unfold compute_survival_statistics.
    by rewrite !(Hg "treatment"), !(Hg "survival_months")
      by (unfold named_columns; set_solver).
Qed.

Lemma extra_columns_ignored_witness :
  get_responsive_patients scenario_data =
    get_responsive_patients annotated_data ∧
  compute_survival_statistics scenario_data =
    compute_survival_statistics annotated_data.
Proof.
  apply (extra_columns_ignored scenario_data annotated_data).
  repeat (constructor; [reflexivity|]). constructor.
Defined.

(** ** The survival aggregator *)



(** C3. The end-to-end scenario: on the three rows P1, P2, P3 the responder
    filter returns ["P1"], the mean of the treatment group is 25 and the
    mean of the control group is 10, both floats. *)
Theorem scenario_results :
  get_responsive_patients scenario_data = Ok [Str "P1"] ∧
  ∃ stats avg_t avg_c,
    compute_survival_statistics scenario_data = Ok stats ∧
    stats !! "avg_survival_treatment_group" = Some (PyFloat avg_t) ∧
    (avg_t == 25)%Q ∧
    stats !! "avg_survival_control" = Some (PyFloat avg_c) ∧
    (avg_c == 10)%Q.
Proof.
  split; [by vm_compute|].
  destruct (compute_survival_statistics scenario_data) as [stats|e] eqn:Hstats;
    [|by vm_compute in Hstats].
  exists stats, (50 # 2)%Q, 10%Q.
  split; [done|].
  assert (stats !! "avg_survival_treatment_group" = Some (PyFloat (50 # 2)) ∧
          stats !! "avg_survival_control" = Some (PyFloat 10)) as [Ht Hc].
  { vm_compute in Hstats. injection Hstats as <-. by vm_compute. }
  by repeat split.
Qed.

(** C10. A row whose treatment is missing belongs to no group: no group key
    is the missing value, and the aggregator returns the same dictionary on
    the table without that row. *)
Theorem compute_survival_statistics_skips_missing (data : DataFrame)
    (rows : list ClinicalRecord) (i : nat) (r : ClinicalRecord) :
  holds_records data rows →
  rows !! i = Some r →
  treatment r = None →
  ∃ stats grouped,
    compute_survival_statistics data = Ok stats ∧
    compute_survival_statistics (delete i <$> data) = Ok stats ∧
    groupby_mean ((λ r, str_cell (treatment r)) <$> rows)
      ((λ r, num_cell (survival_months r)) <$> rows) = Ok grouped ∧
    Null ∉ grouped.*1.
Proof.
  intros Hdata Hi Hr.
  pose proof (survival_statistics_of_records data rows Hdata) as Hstats.
  destruct Hdata as (_ & _ & _ & _ & _ & Htreat & Hsurv).
  pose proof (groupby_mean_records rows) as Hgrouped. cbn zeta in Hgrouped.
  eexists _, _. split; [exact Hstats|]. split; [|split; [exact Hgrouped|]].
  - rewrite <- Hstats.
    unfold compute_survival_statistics, getitem.
    rewrite !lookup_fmap, Htreat, Hsurv. cbn [fmap option_fmap option_map bind].
    rewrite groupby_mean_delete_null; [done|].
    rewrite list_lookup_fmap, Hi. cbn. by rewrite Hr.
  - rewrite (groupby_mean_keys _ _ _ Hgrouped).
    apply group_keys_not_null.
Qed.

Lemma compute_survival_statistics_skips_missing_witness :
  ∃ stats grouped,
    compute_survival_statistics (frame_of_records incomplete_rows) = Ok stats ∧
    compute_survival_statistics (delete 1 <$> frame_of_records incomplete_rows)
      = Ok stats ∧
    groupby_mean ((λ r, str_cell (treatment r)) <$> incomplete_rows)
      ((λ r, num_cell (survival_months r)) <$> incomplete_rows) = Ok grouped ∧
    Null ∉ grouped.*1.
Proof.
  apply (compute_survival_statistics_skips_missing _ incomplete_rows 1
           incomplete_row).
  - repeat split.
  - reflexivity.
  - reflexivity.
Defined.

(** ** The entry point: what a run prints and returns *)

Section run_facts.
Variable fs : gmap string string.
Variable parse_csv : string → option DataFrame.

Lemma analyze_load_fails (path : string) (out : list OutLine) (e : exn) :
  load_clinical_data fs parse_csv path = Raise e →
  analyze_clinical_trial fs parse_csv path out = (out, Raise e).
Proof.
  intros Hload. unfold analyze_clinical_trial, io_bind, lift.
  by rewrite Hload.
Qed.

Lemma analyze_filter_fails (path : string) (out : list OutLine)
    (data : DataFrame) (e : exn) :
  load_clinical_data fs parse_csv path = Ok data →
  get_responsive_patients data = Raise e →
  analyze_clinical_trial fs parse_csv path out = (out, Raise e).
Proof.
  intros Hload Hfilter. unfold analyze_clinical_trial, io_bind, lift.
  by rewrite Hload, Hfilter.
Qed.

Lemma analyze_aggregator_fails (path : string) (out : list OutLine)
    (data : DataFrame) (ids : list cell) (e : exn) :
  load_clinical_data fs parse_csv path = Ok data →
  get_responsive_patients data = Ok ids →
  compute_survival_statistics data = Raise e →
  analyze_clinical_trial fs parse_csv path out = (out, Raise e).
Proof.
  intros Hload Hfilter Hstats. unfold analyze_clinical_trial, io_bind, lift.
  by rewrite Hload, Hfilter, Hstats.
Qed.

Lemma analyze_succeeds (path : string) (out : list OutLine)
    (data : DataFrame) (ids : list cell) (stats : gmap string pyval) :
  load_clinical_data fs parse_csv path = Ok data →
  get_responsive_patients data = Ok ids →
  compute_survival_statistics data = Ok stats →
  ∃ avg_t avg_c,
    stats !! "avg_survival_treatment_group" = Some avg_t ∧
    stats !! "avg_survival_control" = Some avg_c ∧
    analyze_clinical_trial fs parse_csv path out =
      ((out ++ [Line "Avg survival (Treatment A):" avg_t;
                Line "Avg survival (Control):" avg_c;
                Line "Responsive patients:"
                  (PyInt (Z.of_nat (length ids)))])%list,
       Ok ids).
Proof.
  intros Hload Hfilter Hstats.
  destruct (survival_statistics_fields data stats Hstats) as (a & b & ->).
  exists a, b. split; [done|]. split; [done|].
  unfold analyze_clinical_trial, io_bind, lift, print, io_ret, dict_getitem.
  rewrite Hload, Hfilter, Hstats.
  rewrite lookup_insert_eq.
  rewrite lookup_insert_ne, lookup_insert_eq by done.
  by rewrite <- !app_assoc.
Qed.

End run_facts.

(** ** Columns without strings *)



(** Membership of a literal name in a literal list of column names. *)
Ltac listed_column :=
  unfold named_columns, filter_columns; rewrite ?elem_of_cons; auto 10.


(** ** The entry point *)

(** C4, as the specification states it, fails: a file can load and the run
    still print nothing.  The loaded table below has every column the
    responder filter reads and no [treatment] column; the filter succeeds,
    the aggregator raises [KeyError], and no line is printed. *)
Lemma analyze_loaded_without_output :
  load_clinical_data sample_fs (sample_parse untreated_data)
    "clinical_trial_patients.csv" = Ok untreated_data ∧
  get_responsive_patients untreated_data = Ok [Str "P1"] ∧
  analyze_clinical_trial sample_fs (sample_parse untreated_data)
    "clinical_trial_patients.csv" [] = ([], Raise (KeyError "treatment")).
Proof. by vm_compute. Qed.

(** C4, amended.  When the load, the responder filter and the aggregator all
    succeed, the run prints exactly three lines after what was printed
    before, in order: the value of [avg_survival_treatment_group], the value
    of [avg_survival_control], and the length of the list of responsive
    patients; and it returns the list the responder filter produced on the
    loaded table. *)
Theorem analyze_clinical_trial_output (fs : gmap string string)
    (parse_csv : string → option DataFrame) (path : string)
    (out : list OutLine) (data : DataFrame) (ids : list cell)
    (stats : gmap string pyval) :
  load_clinical_data fs parse_csv path = Ok data →
  get_responsive_patients data = Ok ids →
  compute_survival_statistics data = Ok stats →
  ∃ avg_t avg_c,
    stats !! "avg_survival_treatment_group" = Some avg_t ∧
    stats !! "avg_survival_control" = Some avg_c ∧
    analyze_clinical_trial fs parse_csv path out =
      ((out ++ [Line "Avg survival (Treatment A):" avg_t;
                Line "Avg survival (Control):" avg_c;
                Line "Responsive patients:" (PyInt (Z.of_nat (length ids)))])%list,
       Ok ids).
Proof. apply analyze_succeeds. Qed.

Lemma analyze_clinical_trial_output_witness :
  ∃ avg_t avg_c,
    ({[ "avg_survival_treatment_group" := PyFloat (50 # 2);
        "avg_survival_control" := PyFloat 10 ]} : gmap string pyval)
      !! "avg_survival_treatment_group" = Some avg_t ∧
    ({[ "avg_survival_treatment_group" := PyFloat (50 # 2);
        "avg_survival_control" := PyFloat 10 ]} : gmap string pyval)
      !! "avg_survival_control" = Some avg_c ∧
    analyze_clinical_trial sample_fs (sample_parse scenario_data)
      "clinical_trial_patients.csv" [] =
      ([Line "Avg survival (Treatment A):" avg_t;
        Line "Avg survival (Control):" avg_c;
        Line "Responsive patients:" (PyInt 1)],
       Ok [Str "P1"]).
Proof.
  apply (analyze_clinical_trial_output sample_fs (sample_parse scenario_data)
           "clinical_trial_patients.csv" [] scenario_data [Str "P1"]).
  - reflexivity.
  - by vm_compute.
  - by vm_compute.
Defined.

(** C5. A run is all or nothing: either the load, the filter and the
    aggregator succeed and the run prints its three lines and returns, or
    the run raises and has printed no line. *)
Theorem analyze_clinical_trial_all_or_nothing (fs : gmap string string)
    (parse_csv : string → option DataFrame) (path : string)
    (out : list OutLine) :
  (∃ data ids stats l1 l2 l3,
     load_clinical_data fs parse_csv path = Ok data ∧
     get_responsive_patients data = Ok ids ∧
     compute_survival_statistics data = Ok stats ∧
     analyze_clinical_trial fs parse_csv path out =
       ((out ++ [l1; l2; l3])%list, Ok ids)) ∨
  (∃ e, analyze_clinical_trial fs parse_csv path out = (out, Raise e)).
Proof.
  destruct (load_clinical_data fs parse_csv path) as [data|e] eqn:Hload;
    [|right; exists e; by apply analyze_load_fails].
  destruct (get_responsive_patients data) as [ids|e] eqn:Hfilter;
    [|right; exists e; by eapply analyze_filter_fails].
  destruct (compute_survival_statistics data) as [stats|e] eqn:Hstats;
    [|right; exists e; by eapply analyze_aggregator_fails].
  left.
  destruct (analyze_succeeds fs parse_csv path out data ids stats
              Hload Hfilter Hstats) as (avg_t & avg_c & _ & _ & Hrun).
  by eexists data, ids, stats, _, _, _.
Qed.



(** ** Further properties of the responder filter *)

Lemma select_sublist {A} (mask : list bool) (l : list A) :
  select mask l `sublist_of` l.
Proof.
  revert l. induction mask as [|b mask IH]; intros l.
  - apply sublist_nil_l.
  - destruct l as [|x l]; [done|].
    cbn. destruct b.
    + apply sublist_skip, IH.
    + apply sublist_cons, IH.
Qed.

(** X1. Whenever the responder filter returns, on any table, what it
    returns is a subsequence of the [patient_id] column: identifiers are
    neither invented nor reordered, and there are at most as many as
    rows. *)
Theorem get_responsive_patients_sublist (data : DataFrame) (ids : list cell) :
  get_responsive_patients data = Ok ids →
  ∃ id_col, data !! "patient_id" = Some id_col ∧
            ids `sublist_of` id_col ∧ (length ids ≤ length id_col)%nat.
Proof.
  unfold get_responsive_patients, getitem, getitem_mask.
  destruct (data !! "age"); cbn [bind]; [|done].
  destruct (series_ge _ _); cbn [bind]; [|done].
  destruct (data !! "cancer_type"); cbn [bind]; [|done].
  destruct (data !! "final_tumor_size"); cbn [bind]; [|done].
  destruct (data !! "baseline_tumor_size"); cbn [bind]; [|done].
  destruct (series_lt _ _); cbn [bind]; [|done].
  rewrite lookup_fmap.
  destruct (data !! "patient_id") as [id_col|]; cbn; [|done].
  intros [= <-]. exists id_col. split; [done|].
  split; [apply select_sublist|apply sublist_length, select_sublist].
Qed.

Lemma get_responsive_patients_sublist_witness :
  ∃ id_col, scenario_data !! "patient_id" = Some id_col ∧
            [Str "P1"] `sublist_of` id_col ∧
            (length [Str "P1"] ≤ length id_col)%nat.
Proof.
  apply (get_responsive_patients_sublist scenario_data [Str "P1"]).
  by vm_compute.
Defined.

(** X2. The responder filter reads five columns and nothing else: two
    tables that agree on age, cancer_type, final_tumor_size,
    baseline_tumor_size and patient_id give the same result, exception
    included, whatever their treatment and survival columns hold. *)
Theorem get_responsive_patients_reads (data1 data2 : DataFrame) :
  Forall (λ c, data1 !! c = data2 !! c) filter_columns →
  get_responsive_patients data1 = get_responsive_patients data2.
Proof.
  intros Hagree.
  assert (∀ c, c ∈ filter_columns → data1 !! c = data2 !! c) as Hc
    by by apply Forall_forall.
  unfold get_responsive_patients, getitem, getitem_mask.
  rewrite (Hc "age"), (Hc "cancer_type"), (Hc "final_tumor_size"),
    (Hc "baseline_tumor_size") by listed_column.
  destruct (data2 !! "age"); cbn [bind]; [|done].
  destruct (series_ge _ _); cbn [bind]; [|done].
  destruct (data2 !! "cancer_type"); cbn [bind]; [|done].
  destruct (data2 !! "final_tumor_size"); cbn [bind]; [|done].
  destruct (data2 !! "baseline_tumor_size"); cbn [bind]; [|done].
  destruct (series_lt _ _); cbn [bind]; [|done].
  rewrite !lookup_fmap. by rewrite (Hc "patient_id") by listed_column.
Qed.

Lemma get_responsive_patients_reads_witness :
  get_responsive_patients scenario_data =
  get_responsive_patients untreated_data.
Proof.
  apply (get_responsive_patients_reads scenario_data untreated_data).
  repeat (constructor; [reflexivity|]). constructor.
Defined.

(** X3. The aggregator reads two columns and nothing else: two tables that
    agree on treatment and survival_months give the same result, exception
    included. *)
Theorem compute_survival_statistics_reads (data1 data2 : DataFrame) :
  Forall (λ c, data1 !! c = data2 !! c) aggregator_columns →
  compute_survival_statistics data1 = compute_survival_statistics data2.
Proof.
  intros Hagree.
  assert (∀ c, c ∈ aggregator_columns → data1 !! c = data2 !! c) as Hc
    by by apply Forall_forall.
  unfold compute_survival_statistics, getitem.
  by rewrite (Hc "treatment"), (Hc "survival_months")
    by (unfold aggregator_columns; rewrite ?elem_of_cons; auto).
Qed.

Lemma compute_survival_statistics_reads_witness :
  compute_survival_statistics scenario_data =
  compute_survival_statistics ageless_data.
Proof.
  apply (compute_survival_statistics_reads scenario_data ageless_data).
  repeat (constructor; [reflexivity|]). constructor.
Defined.









Lemma series_ge_text (s : Series) (t : Q) (w : string) :
  Str w ∈ s → series_ge s t = Raise TypeError.
Proof.
  unfold series_ge. induction s as [|x s IH]; intros Hin.
  - by apply elem_of_nil in Hin.
  - apply elem_of_cons in Hin as [<-|Hin]; [done|].
    cbn. rewrite (IH Hin). by destruct x.
Qed.

(** X8. A string anywhere in the age column makes the responder filter
    raise [TypeError], whatever the other columns hold or lack; a run that
    loaded such a table raises it and prints nothing. *)
Theorem get_responsive_patients_text_age (fs : gmap string string)
    (parse_csv : string → option DataFrame) (path : string)
    (out : list OutLine) (data : DataFrame) (age_col : Series) (w : string) :
  load_clinical_data fs parse_csv path = Ok data →
  data !! "age" = Some age_col →
  Str w ∈ age_col →
  get_responsive_patients data = Raise TypeError ∧
  analyze_clinical_trial fs parse_csv path out = (out, Raise TypeError).
Proof.
  intros Hload Hage Hw.
  assert (get_responsive_patients data = Raise TypeError) as Hfilter.
  { unfold get_responsive_patients, getitem. rewrite Hage. cbn [bind].
    by rewrite (series_ge_text age_col AGE_THRESHOLD w Hw). }
  split; [done|]. by eapply analyze_filter_fails.
Qed.

Lemma get_responsive_patients_text_age_witness :
  get_responsive_patients text_age_data = Raise TypeError ∧
  analyze_clinical_trial sample_fs (sample_parse text_age_data)
    "clinical_trial_patients.csv" [] = ([], Raise TypeError).
Proof.
  apply (get_responsive_patients_text_age sample_fs
           (sample_parse text_age_data) "clinical_trial_patients.csv" []
           text_age_data [Num 60; Str "unknown"; Num 70] "unknown").
  - reflexivity.
  - reflexivity.
  - apply list_elem_of_further, list_elem_of_here.
Defined.

(** ** Further properties of the survival aggregator *)

Lemma traverse_find (F : cell → Result pyval) (key : cell) (l : list cell)
    (res : list (cell * pyval)) :
  traverse (λ k, m ←! F k; Ok (k, m)) l = Ok res →
  match List.find (λ k, cell_eqb k key) l with
  | Some k =>
      ∃ m, F k = Ok m ∧ List.find (λ kv, cell_eqb kv.1 key) res = Some (k, m)
  | None => List.find (λ kv, cell_eqb kv.1 key) res = None
  end.
Proof.
  revert res. induction l as [|x l IH]; intros res; cbn.
  - by intros [= <-].
  - destruct (F x) as [m|] eqn:Hm; cbn; [|done].
    destruct (traverse _ l) as [ys|] eqn:Hys; cbn; [|done].
    intros [= <-]. cbn.
    destruct (cell_eqb x key); [by exists m|].
    by apply IH.
Qed.

Lemma series_mean_not_int (vals : Series) (m : pyval) (z : Z) :
  series_mean vals = Ok m → m ≠ PyInt z.
Proof.
  unfold series_mean. destruct (numeric_values vals) as [qs|]; cbn; [|done].
  intros [= <-]. by destruct qs.
Qed.

Lemma existsb_Str_elem (g : string) (keys : Series) :
  existsb (λ k, cell_eqb k (Str g)) keys = true ↔ Str g ∈ keys.
Proof.
  induction keys as [|k keys IH]; cbn.
  - split; [done|]. by intros ?%elem_of_nil.
  - rewrite orb_true_iff, elem_of_cons, IH, cell_eqb_Str.
    split; intros [?|?]; auto.
Qed.

(** The default of [.get] is returned exactly when no row has the key. *)
Lemma series_get_default (g : string) (keys vals : Series)
    (grouped : list (cell * pyval)) :
  groupby_mean keys vals = Ok grouped →
  series_get grouped (Str g) (PyInt 0) = PyInt 0 ↔ Str g ∉ keys.
Proof.
  intros Hgrouped. unfold groupby_mean in Hgrouped.
  apply (traverse_find _ (Str g)) in Hgrouped.
  rewrite find_group_keys in Hgrouped. unfold series_get.
  rewrite <- existsb_Str_elem.
  destruct (existsb _ keys).
  - destruct Hgrouped as (m & Hm & ->). cbn. split; [|done].
    intros ->. by apply (series_mean_not_int _ _ 0%Z) in Hm.
  - rewrite Hgrouped. split; [|done]. by intros _ ?.
Qed.

(** X9. In the result of the aggregator, the integer 0 marks an absent
    group and nothing else: for each of the two labels, the value is the
    integer 0 exactly when no row of the table has that treatment.  A group
    that has rows always gives a float. *)
Theorem compute_survival_statistics_default (data : DataFrame)
    (stats : gmap string pyval) (keys : Series) (g field : string) :
  compute_survival_statistics data = Ok stats →
  data !! "treatment" = Some keys →
  (g, field) ∈ group_fields →
  stats !! field = Some (PyInt 0) ↔ Str g ∉ keys.
Proof.
  unfold compute_survival_statistics, getitem. intros Hstats Hkeys Hfield.
  rewrite Hkeys in Hstats. cbn [bind] in Hstats.
  destruct (data !! "survival_months") as [vals|]; cbn [bind] in Hstats;
    [|done].
  destruct (groupby_mean keys vals) as [grouped|] eqn:Hgrouped;
    cbn [bind] in Hstats; [|done].
  injection Hstats as <-.
  rewrite <- (series_get_default g keys vals grouped Hgrouped).
  unfold group_fields in Hfield.
  apply elem_of_cons in Hfield as [[= -> ->]|Hfield].
  - rewrite lookup_insert_eq. split; congruence.
  - apply elem_of_cons in Hfield as [[= -> ->]|Hfield];
      [|by apply elem_of_nil in Hfield].
    rewrite lookup_insert_ne, lookup_insert_eq by done. split; congruence.
Qed.

Lemma compute_survival_statistics_default_witness :
  (<["avg_survival_treatment_group" := PyInt 0]>
     (<["avg_survival_control" := PyFloat 10]> ∅) : gmap string pyval)
    !! "avg_survival_treatment_group" = Some (PyInt 0) ↔
  Str "Treatment_A" ∉ [Str "Control"].
Proof.
  apply (compute_survival_statistics_default
           (frame_of_records (take 1 (drop 1 scenario_rows)))
           _ _ "Treatment_A" "avg_survival_treatment_group").
  - by vm_compute.
  - reflexivity.
  - apply list_elem_of_here.
Defined.

Lemma omap_filter_none {A B} (P : A → Prop) `{!∀ x, Decision (P x)}
    (f : A → option B) (l : list A) :
  Forall (λ x, P x → f x = None) l → omap f (filter P l) = [].
Proof.
  induction 1 as [|x l Hx _ IH]; [done|].
  rewrite filter_cons. destruct (decide (P x)) as [HP|]; [|done].
  cbn. by rewrite (Hx HP).
Qed.

(** X10. A group that has rows but no survival value at all has mean NaN,
    not 0: the default 0 is for absent groups only. *)
Theorem compute_survival_statistics_unmeasured (data : DataFrame)
    (rows : list ClinicalRecord) (g field : string) :
  holds_records data rows →
  (g, field) ∈ group_fields →
  Exists (in_group g) rows →
  Forall (λ r, in_group g r → survival_months r = None) rows →
  ∃ stats, compute_survival_statistics data = Ok stats ∧
           stats !! field = Some PyNaN.
Proof.
  intros Hdata Hfield Hsome Hnone.
  eexists. split; [by apply survival_statistics_of_records|].
  assert (group_mean g rows = PyNaN) as Hmean.
  { unfold group_mean.
    destruct (filter (in_group g) rows) as [|r grp] eqn:Hgrp.
    - apply Exists_exists in Hsome as (r & Hin & Hr).
      assert (r ∈ filter (in_group g) rows) as Hin'
        by by apply list_elem_of_filter.
      rewrite Hgrp in Hin'. by apply elem_of_nil in Hin'.
    - by rewrite <- Hgrp, omap_filter_none. }
  unfold group_fields in Hfield.
  apply elem_of_cons in Hfield as [[= -> ->]|Hfield].
  - by rewrite lookup_insert_eq, Hmean.
  - apply elem_of_cons in Hfield as [[= -> ->]|Hfield];
      [|by apply elem_of_nil in Hfield].
    by rewrite lookup_insert_ne, lookup_insert_eq, Hmean.
Qed.

Lemma compute_survival_statistics_unmeasured_witness :
  ∃ stats, compute_survival_statistics (frame_of_records edge_rows) = Ok stats ∧
           stats !! "avg_survival_treatment_group" = Some PyNaN.
Proof.
  apply (compute_survival_statistics_unmeasured _ edge_rows "Treatment_A").
  - repeat split.
  - apply list_elem_of_here.
  - apply Exists_cons_tl, Exists_cons_hd. reflexivity.
  - constructor; [intros H; discriminate H|].
    constructor; [intros _; reflexivity|]. constructor.
Defined.



Lemma holds_records_delete (data : DataFrame) (rows : list ClinicalRecord)
    (i : nat) :
  holds_records data rows →
  holds_records (delete i <$> data) (delete i rows).
Proof.
  intros (Hid & Hage & Htype & Hbase & Hfinal & Htreat & Hsurv).
  unfold holds_records. rewrite !lookup_fmap.
  rewrite Hid, Hage, Htype, Hbase, Hfinal, Htreat, Hsurv. cbn.
  by rewrite !list_fmap_delete.
Qed.

(** X12. A row whose treatment is neither "Treatment_A" nor "Control"
    weighs on neither mean: the aggregator returns the same dictionary on the
    table without that row. *)
Theorem compute_survival_statistics_other_arm (data : DataFrame)
    (rows : list ClinicalRecord) (i : nat) (r : ClinicalRecord) :
  holds_records data rows →
  rows !! i = Some r →
  treatment r ≠ Some "Treatment_A" →
  treatment r ≠ Some "Control" →
  ∃ stats,
    compute_survival_statistics data = Ok stats ∧
    compute_survival_statistics (delete i <$> data) = Ok stats.
Proof.
  intros Hdata Hi Ht Hc.
  eexists. split; [by apply survival_statistics_of_records|].
  rewrite (survival_statistics_of_records _ _ (holds_records_delete _ _ i Hdata)).
  unfold group_mean.
  by rewrite !(filter_delete_False _ rows i r).
Qed.

Lemma compute_survival_statistics_other_arm_witness :
  ∃ stats,
    compute_survival_statistics (frame_of_records edge_rows) = Ok stats ∧
    compute_survival_statistics (delete 0 <$> frame_of_records edge_rows) =
      Ok stats.
Proof.
  apply (compute_survival_statistics_other_arm _ edge_rows 0 threshold_row).
  - repeat split.
  - reflexivity.
  - discriminate.
  - discriminate.
Defined.

(** ** Further properties of the entry point *)


